(** * Authentication service of the NGO-management backend

    A shallow embedding of [AutenticacaoService] (the second module of
    [src/backend/controllers/ongController.js], lines 212-262): [login] and
    [refreshToken], together with the JavaScript notions they rely on
    (property reads, strict equality, promises that resolve or reject,
    [try]/[catch]).

    The service talks to three collaborators that are not part of the
    module: the repository object [autenticacaoRepository]
    ([buscarPorEmail], [gerarToken], [gerarRefreshToken]), the function
    [verify] of the [jsonwebtoken] package and the environment variable
    [process.env.SECRET_REFRESH].  They are the fields of the class
    [Collaborators]; the service is written once, for every instance.

    The request handlers of [OngController] (lines 1-211 of the same
    file) are embedded further down, in the same way. *)

From stdpp Require Import base option gmap strings.
From Stdlib Require Import ZArith Lia.

Local Open Scope Z_scope.
Local Open Scope string_scope.

(** ** JavaScript values *)

(** Primitive values: what a column of the [usuarios] table, a field of a
    request body or an entry of [process.env] holds.  Numbers are integers
    (ids, timestamps); [NaN] does not occur. *)
Inductive JsVal : Type :=
  | VUndef
  | VNull
  | VBool (b : bool)
  | VNum (z : Z)
  | VStr (s : string).

#[export] Instance JsVal_eq_dec : EqDecision JsVal.
Proof. solve_decision. Defined.

(** [a === b] on primitives: same type and same value. *)
Definition strict_eq (a b : JsVal) : bool :=
  match a, b with
  | VUndef, VUndef => true
  | VNull, VNull => true
  | VBool x, VBool y => Bool.eqb x y
  | VNum x, VNum y => Z.eqb x y
  | VStr x, VStr y => String.eqb x y
  | _, _ => false
  end.

(** An object whose properties hold primitives: a row of [usuarios] as the
    ORM hands it out, a request body, an object literal. *)
Abbreviation JsObject := (gmap string JsVal).

(** [o.k]: the value of the property, [undefined] when [o] has none. *)
Definition get (o : JsObject) (k : string) : JsVal :=
  default VUndef (o !! k).

(** A property of a decoded token payload: a primitive or a nested object
    (the payload [{ usuario: {...}, iat, exp }]). *)
Inductive JsClaim : Type :=
  | CVal (v : JsVal)
  | CObj (o : JsObject).

Abbreviation Decoded := (gmap string JsClaim).

(** What is thrown: an [Error] with its message. *)
Record JsError : Type := mkError { message : string }.

#[export] Instance JsError_eq_dec : EqDecision JsError.
Proof. solve_decision. Defined.

(** ** Asynchronous computations *)

(** How the evaluation of an awaited call ends: with a value, or with a
    thrown error (a rejected promise). *)
Inductive Completion (A : Type) : Type :=
  | Normal (a : A)
  | Throw (e : JsError).
Arguments Normal {A} a.
Arguments Throw {A} e.

(** A computation over the world [W] outside the service (database, clock,
    whatever the collaborators keep): it maps the world before to its
    completion and the world after. *)
Definition M (W A : Type) : Type := W → Completion A * W.

Definition ret {W A} (a : A) : M W A := λ w, (Normal a, w).

Definition throw {W A} (e : JsError) : M W A := λ w, (Throw e, w).

(** [const x = await c; k x]: a rejection of [c] ends the computation. *)
Definition bind {W A B} (c : M W A) (k : A → M W B) : M W B :=
  λ w, match c w with
       | (Normal a, w') => k a w'
       | (Throw e, w') => (Throw e, w')
       end.

(** [try { body } catch (error) { handler error }]. *)
Definition try_catch {W A} (body : M W A) (handler : JsError → M W A) : M W A :=
  λ w, match body w with
       | (Normal a, w') => (Normal a, w')
       | (Throw e, w') => handler e w'
       end.

(** The completion of a synchronous expression, lifted. *)
Definition lift {W A} (c : Completion A) : M W A := λ w, (c, w).

(** [c] leaves a view of the world (the contents of a table, say) as it
    found it, however it completes. *)
Definition preserves {W A V} (view : W → V) (c : M W A) : Prop :=
  ∀ w, view (c w).2 = view w.

Notation "'await' x ← c ; k" := (bind c (λ x, k))
  (at level 10, x name, c at level 100, k at level 200,
   format "'[v' 'await'  x  ←  c ; '/' k ']'").

(** ** The service's results *)

(** The object literal [{ token, usuario, refreshToken }] that both
    operations return; [usuario] is itself an object literal. *)
Record SessionBundle (Token : Type) : Type := mkBundle {
  token : Token;
  usuario : JsObject;
  refreshToken : Token;
}.
Arguments mkBundle {Token}.
Arguments token {Token}.
Arguments usuario {Token}.
Arguments refreshToken {Token}.

(** What the promise of an operation resolves with: a bundle, or
    [undefined] when the function body ends without a [return]. *)
Inductive Resolved (Token : Type) : Type :=
  | RUndefined
  | RBundle (b : SessionBundle Token).
Arguments RUndefined {Token}.
Arguments RBundle {Token} b.

(** ** The collaborators *)

Class Collaborators : Type := {
  (** everything outside the service that a call may read or change *)
  World : Type;
  (** the strings that [gerarToken] produces and [verify] reads *)
  Token : Type;
  (** [autenticacaoRepository.buscarPorEmail(email)]: the user row, or
      [null] ([None]) when there is none *)
  buscarPorEmail : JsVal → M World (option JsObject);
  (** [autenticacaoRepository.gerarToken(usuario)] *)
  gerarToken : JsObject → M World Token;
  (** [autenticacaoRepository.gerarRefreshToken(usuario)] *)
  gerarRefreshToken : JsObject → M World Token;
  (** [verify(token, secret)] of [jsonwebtoken]: the decoded payload, or a
      thrown error *)
  verify : Token → JsVal → M World Decoded;
  (** [process.env.SECRET_REFRESH] *)
  SECRET_REFRESH : JsVal;
}.

(** ** AutenticacaoService *)

Module AutenticacaoService.
Section Service.
Context `{Collaborators}.

(** [new Error('Email ou senha inválidos')] *)
Definition invalid_credentials : JsError :=
  mkError "Email ou senha inválidos".

(** [new Error('Refresh Token inválido')] *)
Definition invalid_refresh_token : JsError :=
  mkError "Refresh Token inválido".

(** The object literal [{ id: usuario.id, email: usuario.email,
    nome: usuario.nome, perfil: usuario.perfil }]. *)
Definition perfil_publico (u : JsObject) : JsObject :=
  {[ "id" := get u "id";
     "email" := get u "email";
     "nome" := get u "nome";
     "perfil" := get u "perfil" ]}.

(** The [return { token: await ..., usuario: {...}, refreshToken: await ... }]
    shared by both operations; the properties are evaluated in order. *)
Definition sessao (u : JsObject) : M World (Resolved Token) :=
  await t ← gerarToken u;
  let p := perfil_publico u in
  await r ← gerarRefreshToken u;
  ret (RBundle (mkBundle t p r)).

(** [async login(credenciais)] *)
Definition login (credenciais : JsObject) : M World (Resolved Token) :=
  await usuario ← buscarPorEmail (get credenciais "email");
  match usuario with
  | Some u =>
      if strict_eq (get u "senha") (get credenciais "senha")
      then sessao u
      else throw invalid_credentials
  | None => throw invalid_credentials
  end.

(** [decoded.usuario.email]: reading [email] off [undefined] or [null]
    throws a [TypeError]; off a primitive it gives [undefined]. *)
Definition usuario_email (decoded : Decoded) : Completion JsVal :=
  match decoded !! "usuario" with
  | Some (CObj o) => Normal (get o "email")
  | Some (CVal VNull) =>
      Throw (mkError "Cannot read properties of null (reading 'email')")
  | Some (CVal VUndef) | None =>
      Throw (mkError "Cannot read properties of undefined (reading 'email')")
  | Some (CVal _) => Normal VUndef
  end.

(** The body of the [try] block of [refreshToken]. *)
Definition refreshToken_try (refreshToken : Token) : M World (Resolved Token) :=
  await decoded ← verify refreshToken SECRET_REFRESH;
  await email ← lift (usuario_email decoded);
  await usuario ← buscarPorEmail email;
  match usuario with
  | Some u => sessao u
  | None => ret RUndefined
  end.

(** [async refreshToken(refreshToken)] *)
Definition refreshToken (refreshToken : Token) : M World (Resolved Token) :=
  try_catch (refreshToken_try refreshToken)
            (λ _, throw invalid_refresh_token).

(** [login(credenciais)] for whatever value it is called with: the first
    thing evaluated is [credenciais.email], which throws a [TypeError] off
    [undefined] or [null], before anything is awaited; a primitive has
    neither [email] nor [senha], like the empty object. *)
Definition login_any (credenciais : JsClaim) : M World (Resolved Token) :=
  match credenciais with
  | CObj o => login o
  | CVal VUndef =>
      throw (mkError "Cannot read properties of undefined (reading 'email')")
  | CVal VNull =>
      throw (mkError "Cannot read properties of null (reading 'email')")
  | CVal _ => login ∅
  end.

End Service.
End AutenticacaoService.

(** ** Token codec, credential store and configuration

    The repository class behind [autenticacaoRepository], the token codec
    and the process configuration are not among the sources of the
    service.  The definitions of this module follow sections 3, 4.1 and 6
    of the specification; they give the service a concrete set of
    collaborators to run against. *)

Module TokenCodec.

(** Modelled from the spec: the internal outcomes of the Token Codec
    (section 7), which is not among the sources. *)
Inductive VerificationError : Type :=
  | Malformed
  | InvalidSignature
  | Expired.

(** Modelled from the spec: the content of a token (section 3), a
    ClaimsPayload with its issued-at and expiry times; the codec is not
    among the sources. *)
Record Payload : Type := mkPayload {
  claims : JsObject;
  iat : Z;
  exp : Z;
}.

#[global] Instance Payload_eq_dec : EqDecision Payload.
Proof. solve_decision. Defined.

(** Modelled from the spec: the header/metadata segment of the wire format
    (section 6); the codec is not among the sources. *)
Definition header_meta : string := "HS256".

Section Codec.

(** The signature scheme: the signature of a content under a secret. *)
Context {Sig : Type} `{EqDecision Sig}.
Variable mac : string → string * Payload → Sig.

(** Modelled from the spec: the token wire format (section 6), three
    ordered segments, or a string that does not decode into them; the
    codec is not among the sources. *)
Inductive TokenString : Type :=
  | Undecodable (s : string)
  | Segments (header : string) (payload : Payload) (signature : Sig).

(** Modelled from the spec: [issue(claims, secret, ttl)] (section 4.1),
    with the clock reading [now] as the issued-at time; the codec is not
    among the sources. *)
Definition issue (c : JsObject) (secret : string) (ttl now : Z) : TokenString :=
  let p := mkPayload c now (now + ttl) in
  Segments header_meta p (mac secret (header_meta, p)).

(** Modelled from the spec: [verify(tokenString, secret)] (section 4.1) at
    the clock reading [now]: the signature is recomputed and compared,
    then the expiry is checked; the codec is not among the sources. *)
Definition verify (t : TokenString) (secret : string) (now : Z)
  : Payload + VerificationError :=
  match t with
  | Undecodable _ => inr Malformed
  | Segments h p sg =>
      if decide (sg = mac secret (h, p))
      then if decide (exp p ≤ now)%Z then inr Expired else inl p
      else inr InvalidSignature
  end.

End Codec.

Arguments TokenString Sig : clear implicits.
Arguments Undecodable {Sig} s.

End TokenCodec.

Module SpecCollaborators.
Import TokenCodec (VerificationError, Malformed, InvalidSignature, Expired,
  Payload, mkPayload, claims, iat, exp, TokenString, Undecodable, Segments).

(** Modelled from the spec: the configuration surface (section 6), two
    secrets and two lifetimes; the process configuration is not among the
    sources. *)
Record Config : Type := mkConfig {
  accessSecret : string;
  refreshSecret : string;
  accessTtl : Z;
  refreshTtl : Z;
}.

(** Modelled from the spec: what lies outside the service, the Credential
    Store (user records by email, section 2) and the clock; neither is
    among the sources. *)
Record SpecWorld : Type := mkWorld {
  store : gmap string JsObject;
  clock : Z;
}.

(** Modelled from the spec: the ClaimsPayload of a UserRecord (section 3),
    its id, email, display name and role; the repository that builds it is
    not among the sources. *)
Definition claimsOf (u : JsObject) : JsObject :=
  {[ "id" := get u "id";
     "email" := get u "email";
     "nome" := get u "nome";
     "perfil" := get u "perfil" ]}.

(** Modelled from the spec: a signature scheme in which a signature
    determines the secret and the content it was made from; the codec is
    not among the sources. *)
Definition symbolic_mac (secret : string) (content : string * Payload)
  : string * (string * Payload) := (secret, content).

Abbreviation SpecToken := (TokenString (string * (string * Payload))).

(** Modelled from the spec: [findByEmail(email)] (section 6), a read of
    the Credential Store; the repository is not among the sources. *)
Definition findByEmail (email : JsVal) : M SpecWorld (option JsObject) :=
  λ w, match email with
       | VStr e => (Normal (store w !! e), w)
       | _ => (Normal None, w)
       end.

(** Modelled from the spec: the error a caller of the codec sees for each
    of its outcomes; the codec is not among the sources. *)
Definition error_of (e : VerificationError) : JsError :=
  match e with
  | Malformed => mkError "jwt malformed"
  | InvalidSignature => mkError "invalid signature"
  | Expired => mkError "jwt expired"
  end.

(** Modelled from the spec: the decoded payload [{ usuario: claims, iat,
    exp }] that [refreshToken] reads its email from; the codec is not
    among the sources. *)
Definition decoded_of (p : Payload) : Decoded :=
  {[ "usuario" := CObj (claims p);
     "iat" := CVal (VNum (iat p));
     "exp" := CVal (VNum (exp p)) ]}.

(** Modelled from the spec: the collaborators of the service (sections 2,
    4.1 and 6): lookups read the store, tokens are issued from the
    ClaimsPayload under the access or the refresh secret, verification
    reads the clock; neither the repository nor the codec is among the
    sources. *)
Definition collaborators (cfg : Config) : Collaborators := {|
  World := SpecWorld;
  Token := SpecToken;
  buscarPorEmail := findByEmail;
  gerarToken u := λ w,
    (Normal (TokenCodec.issue symbolic_mac (claimsOf u) (accessSecret cfg)
                   (accessTtl cfg) (clock w)), w);
  gerarRefreshToken u := λ w,
    (Normal (TokenCodec.issue symbolic_mac (claimsOf u) (refreshSecret cfg)
                   (refreshTtl cfg) (clock w)), w);
  verify t secret := λ w,
    match secret with
    | VStr k =>
        match TokenCodec.verify symbolic_mac t k (clock w) with
        | inl p => (Normal (decoded_of p), w)
        | inr e => (Throw (error_of e), w)
        end
    | _ => (Throw (mkError "secret or public key must be provided"), w)
    end;
  SECRET_REFRESH := VStr (refreshSecret cfg);
|}.

(** The claims a token carries, when it decodes. *)
Definition claims_in (t : SpecToken) : option JsObject :=
  match t with
  | Undecodable _ => None
  | Segments _ p _ => Some (claims p)
  end.

End SpecCollaborators.

(** ** A concrete deployment

    One configuration, one stored user and the requests used to run the
    service on the collaborators above. *)

Module Exemplo.
Import SpecCollaborators.

Definition cfg : Config :=
  mkConfig "access-secret" "refresh-secret" 3600 604800.

(** The stored row of Ana, and the row as it was when her refresh token
    was issued (she has been promoted since). *)
Definition ana : JsObject :=
  {[ "id" := VNum 7; "email" := VStr "a@x.com"; "nome" := VStr "Ana";
     "perfil" := VStr "admin"; "senha" := VStr "secret";
     "createdAt" := VNum 100 ]}.

Definition ana_antes : JsObject := <[ "perfil" := VStr "staff" ]> ana.

Definition mundo : SpecWorld := mkWorld {[ "a@x.com" := ana ]} 1000.

(** The same moment, after Ana's row has been deleted. *)
Definition mundo_sem_ana : SpecWorld := mkWorld ∅ 1000.

Definition credenciais_ana : JsObject :=
  {[ "email" := VStr "a@x.com"; "senha" := VStr "secret" ]}.

Definition credenciais_erradas : JsObject :=
  {[ "email" := VStr "a@x.com"; "senha" := VStr "guess" ]}.

Definition credenciais_desconhecidas : JsObject :=
  {[ "email" := VStr "nobody@x.com"; "senha" := VStr "secret" ]}.

(** Tokens issued at time 900 for Ana's earlier row. *)
Definition refresh_ana : SpecToken :=
  TokenCodec.issue symbolic_mac (claimsOf ana_antes) (refreshSecret cfg)
                   (refreshTtl cfg) 900.

Definition access_ana : SpecToken :=
  TokenCodec.issue symbolic_mac (claimsOf ana_antes) (accessSecret cfg)
                   (accessTtl cfg) 900.

(** A refresh token that expired at time 950. *)
Definition refresh_expirado : SpecToken :=
  TokenCodec.issue symbolic_mac (claimsOf ana) (refreshSecret cfg) 50 900.

(** The tokens the service issues for Ana at time 1000. *)
Definition novo_access : SpecToken :=
  TokenCodec.issue symbolic_mac (claimsOf ana) (accessSecret cfg)
                   (accessTtl cfg) 1000.

Definition novo_refresh : SpecToken :=
  TokenCodec.issue symbolic_mac (claimsOf ana) (refreshSecret cfg)
                   (refreshTtl cfg) 1000.

(** What Ana's refresh token carries. *)
Definition payload_ana_antes : TokenCodec.Payload :=
  TokenCodec.mkPayload (claimsOf ana_antes) 900 605700.

(** The service's collaborators in this deployment. *)
Definition servico : Collaborators := collaborators cfg.

(** The bundle Ana gets at time 1000. *)
Definition sessao_ana : SessionBundle SpecToken :=
  mkBundle novo_access (AutenticacaoService.perfil_publico ana) novo_refresh.

(** A repository whose database is unreachable: every lookup rejects. *)
Definition sem_banco : Collaborators := {|
  World := SpecWorld;
  Token := SpecToken;
  buscarPorEmail _ := throw (mkError "connect ECONNREFUSED");
  gerarToken := @gerarToken (collaborators cfg);
  gerarRefreshToken := @gerarRefreshToken (collaborators cfg);
  verify := @verify (collaborators cfg);
  SECRET_REFRESH := @SECRET_REFRESH (collaborators cfg);
|}.

End Exemplo.

(** ** OngController

    The first module of [ongController.js] (lines 1-211): the seven
    request handlers of the ONG routes.  They call the service object
    [ongService] (class [OngService], not part of the module), validate
    bodies with the [joi] package and convert route parameters with the
    built-in [Number]; these are collaborators, as above.  The schemas
    that the handlers build are data, written out as in the source. *)

(** [req]: the route parameters and the parsed body. *)
Record Request : Type := mkRequest {
  params : JsObject;
  body : JsObject;
}.

(** The value of the one property of a JSON body: what the service handed
    over ([{ ong }], [{ ongs }], ...), or a message ([{ error: ... }]). *)
Inductive Conteudo (D : Type) : Type :=
  | CDados (d : D)
  | CMensagem (m : string).
Arguments CDados {D} d.
Arguments CMensagem {D} m.

(** A response as sent through [res]: [res.status(s).json({ k: v })] has
    the body [Some (k, v)], [res.status(s).end()] has none. *)
Record Resposta (D : Type) : Type := mkResposta {
  status : Z;
  json : option (string * Conteudo D);
}.
Arguments mkResposta {D}.
Arguments status {D}.
Arguments json {D}.

(** What a handler returns: nothing, or [res] (after
    [return res.status(400).json(...)]). *)
Inductive HandlerReturn : Type :=
  | ReturnsUndefined
  | ReturnsRes.

Module Joi.

(** The rules chained on a key: [Joi.string()], [.required()],
    [.max(n)], [.email()]. *)
Inductive Rule : Type :=
  | JString
  | JRequired
  | JMax (limit : Z)
  | JEmail.

(** [Joi.object({...})], with the keys of a trailing [.or(...)]. *)
Record Schema : Type := mkSchema {
  keys : list (string * list Rule);
  or_keys : list string;
}.

(** The [error] of a validation: the messages of [error.details]. *)
Record ValidationError : Type := mkValidationError {
  details : list string;
}.

(** [{ error, value }], as [schema.validate(body)] returns it. *)
Record ValidationResult : Type := mkResult {
  error : option ValidationError;
  value : JsObject;
}.

(** [schema.validate(body)] of the package. *)
Class Joi : Type := {
  validate : Schema → JsObject → ValidationResult;
}.

End Joi.

Module OngService.

(** The methods of [ongService] that the handlers call, over the world
    they work on; [Dados] is what they resolve with. *)
Class OngService : Type := {
  World : Type;
  Dados : Type;
  getAll : M World Dados;
  getById : JsVal → M World Dados;
  getBeneficiados : JsVal → M World Dados;
  create : JsObject → M World Dados;
  update : JsVal → JsObject → M World Dados;
  delete : JsVal → M World Dados;
  getProfessores : JsVal → M World Dados;
}.

End OngService.

(** The built-in [Number(x)]. *)
Class Globals : Type := {
  Number : JsVal → JsVal;
}.

Module OngController.
Section Controller.
Context `{OngService.OngService} `{Joi.Joi} `{Globals}.

(** What a handler works on: the world of the service and the responses
    sent so far through [res]. *)
Record Estado : Type := mkEstado {
  banco : OngService.World;
  respostas : list (Resposta OngService.Dados);
}.

(** An awaited call of the service. *)
Definition chamar {A} (c : M OngService.World A) : M Estado A :=
  λ st, let '(r, w') := c (banco st) in (r, mkEstado w' (respostas st)).

(** [res.status(code).json({ key: content })]: the response is recorded;
    sending is taken not to fail. *)
Definition status_json (code : Z) (key : string)
    (content : Conteudo OngService.Dados) : M Estado unit :=
  λ st, (Normal tt,
         mkEstado (banco st)
                  (respostas st ++ [mkResposta code (Some (key, content))])).

(** [res.status(code).end()] *)
Definition status_end (code : Z) : M Estado unit :=
  λ st, (Normal tt, mkEstado (banco st) (respostas st ++ [mkResposta code None])).

(** [error.details[0].message]: reading [message] off a missing first
    element throws a [TypeError]. *)
Definition details_0_message (err : Joi.ValidationError) : Completion string :=
  match Joi.details err with
  | m :: _ => Normal m
  | [] => Throw (mkError "Cannot read properties of undefined (reading 'message')")
  end.

(** [static async getAll(req, res)] *)
Definition getAll (req : Request) : M Estado HandlerReturn :=
  await ongs ← chamar OngService.getAll;
  await _ ← status_json 200 "ongs" (CDados ongs);
  ret ReturnsUndefined.

(** [static async getById(req, res)] *)
Definition getById (req : Request) : M Estado HandlerReturn :=
  try_catch
    (let id := get (params req) "id" in
     await ong ← chamar (OngService.getById (Number id));
     await _ ← status_json 200 "ong" (CDados ong);
     ret ReturnsUndefined)
    (λ error,
     await _ ← status_json 404 "error" (CMensagem (message error));
     ret ReturnsUndefined).

(** [static async getBeneficiados(req, res)] *)
Definition getBeneficiados (req : Request) : M Estado HandlerReturn :=
  try_catch
    (let id := get (params req) "id" in
     await beneficiados ← chamar (OngService.getBeneficiados (Number id));
     await _ ← status_json 200 "beneficiados" (CDados beneficiados);
     ret ReturnsUndefined)
    (λ error,
     await _ ← status_json 404 "error" (CMensagem (message error));
     ret ReturnsUndefined).

(** The schema of [create]. *)
Definition create_schema : Joi.Schema :=
  Joi.mkSchema
    [ ("nome", [Joi.JString; Joi.JRequired]);
      ("descricao", [Joi.JString; Joi.JRequired; Joi.JMax 100]);
      ("endereco_cidade", [Joi.JString; Joi.JRequired]);
      ("endereco_estado", [Joi.JString; Joi.JRequired]);
      ("cnpj", [Joi.JString; Joi.JRequired]);
      ("telefone", [Joi.JString; Joi.JRequired]);
      ("email", [Joi.JString; Joi.JEmail; Joi.JRequired]);
      ("imagem", [Joi.JString]) ]
    [].

(** [static async create(req, res)] *)
Definition create (req : Request) : M Estado HandlerReturn :=
  let r := Joi.validate create_schema (body req) in
  match Joi.error r with
  | Some error =>
      await m ← lift (details_0_message error);
      await _ ← status_json 400 "error" (CMensagem m);
      ret ReturnsRes
  | None =>
      try_catch
        (await newOng ← chamar (OngService.create (Joi.value r));
         await _ ← status_json 201 "ong" (CDados newOng);
         ret ReturnsUndefined)
        (λ error,
         await _ ← status_json 409 "error" (CMensagem (message error));
         ret ReturnsUndefined)
  end.

(** The schema of [update]. *)
Definition update_schema : Joi.Schema :=
  Joi.mkSchema
    [ ("nome", [Joi.JString]);
      ("descricao", [Joi.JString; Joi.JMax 100]);
      ("endereco_cidade", [Joi.JString]);
      ("endereco_estado", [Joi.JString]);
      ("cnpj", [Joi.JString]);
      ("telefone", [Joi.JString]);
      ("email", [Joi.JString; Joi.JEmail]);
      ("imagem", [Joi.JString]) ]
    [ "nome"; "descricao"; "endereco_cidade"; "endereco_estado"; "cnpj";
      "telefone"; "email"; "imagem" ].

(** [static async update(req, res)] *)
Definition update (req : Request) : M Estado HandlerReturn :=
  let id := get (params req) "id" in
  let r := Joi.validate update_schema (body req) in
  match Joi.error r with
  | Some error =>
      await m ← lift (details_0_message error);
      await _ ← status_json 400 "error" (CMensagem m);
      ret ReturnsRes
  | None =>
      try_catch
        (await updatedOng ← chamar (OngService.update (Number id) (Joi.value r));
         await _ ← status_json 200 "ong" (CDados updatedOng);
         ret ReturnsUndefined)
        (λ error,
         await _ ← status_json 404 "error" (CMensagem (message error));
         ret ReturnsUndefined)
  end.

(** [static async delete(req, res)] *)
Definition delete (req : Request) : M Estado HandlerReturn :=
  try_catch
    (let id := get (params req) "id" in
     await _ ← chamar (OngService.delete (Number id));
     await _ ← status_end 204;
     ret ReturnsUndefined)
    (λ error,
     await _ ← status_json 404 "error" (CMensagem (message error));
     ret ReturnsUndefined).

(** [static async getProfessores(req, res)] *)
Definition getProfessores (req : Request) : M Estado HandlerReturn :=
  try_catch
    (let id := get (params req) "id" in
     await professores ← chamar (OngService.getProfessores (Number id));
     await _ ← status_json 200 "professores" (CDados professores);
     ret ReturnsUndefined)
    (λ error,
     await _ ← status_json 500 "error" (CMensagem (message error));
     ret ReturnsUndefined).

End Controller.
End OngController.

(** ** A concrete deployment of the controller

    An in-memory [ongService] over the ONGs by id, a validator that
    checks the required keys and the [or] keys of a schema, and requests
    to run the handlers on. *)

Module ExemploOng.

#[global] Instance Rule_eq_dec : EqDecision Joi.Rule.
Proof. solve_decision. Defined.

Definition nao_encontrada : JsError := mkError "ONG não encontrada".

Definition ong_de (id : JsVal) (w : gmap Z JsObject) : option (Z * JsObject) :=
  match id with
  | VNum n => (λ o, (n, o)) <$> w !! n
  | _ => None
  end.

Definition servico : OngService.OngService := {|
  OngService.World := gmap Z JsObject;
  OngService.Dados := list JsObject;
  OngService.getAll := λ w, (Normal (map_to_list w).*2, w);
  OngService.getById id := λ w,
    match ong_de id w with
    | Some (_, o) => (Normal [o], w)
    | None => (Throw nao_encontrada, w)
    end;
  OngService.getBeneficiados id := λ w,
    match ong_de id w with
    | Some _ => (Normal [], w)
    | None => (Throw nao_encontrada, w)
    end;
  OngService.create value := λ w,
    if decide (map_Exists (λ _ o, get o "cnpj" = get value "cnpj") w)
    then (Throw (mkError "CNPJ já cadastrado"), w)
    else let n := (Z.of_nat (size w) + 1)%Z in
         let o := <[ "id" := VNum n ]> value in
         (Normal [o], <[ n := o ]> w);
  OngService.update id value := λ w,
    match ong_de id w with
    | Some (n, o) => (Normal [value ∪ o], <[ n := value ∪ o ]> w)
    | None => (Throw nao_encontrada, w)
    end;
  OngService.delete id := λ w,
    match ong_de id w with
    | Some (n, _) => (Normal [], base.delete n w)
    | None => (Throw nao_encontrada, w)
    end;
  OngService.getProfessores id := λ w,
    match ong_de id w with
    | Some _ => (Normal [], w)
    | None => (Throw (mkError "connect ECONNREFUSED"), w)
    end;
|}.

(** The first required key that the body lacks. *)
Definition falta (s : Joi.Schema) (b : JsObject) : option string :=
  fst <$> head (filter (λ kr, bool_decide (Joi.JRequired ∈ kr.2)
                               && bool_decide (b !! kr.1 = None))
                       (Joi.keys s)).

Definition validador : Joi.Joi := {|
  Joi.validate s b :=
    match falta s b with
    | Some k => Joi.mkResult (Some (Joi.mkValidationError [k +:+ " is required"])) b
    | None =>
        if bool_decide (Joi.or_keys s ≠ [])
           && forallb (λ k, bool_decide (b !! k = None)) (Joi.or_keys s)
        then Joi.mkResult
               (Some (Joi.mkValidationError ["value must contain at least one key"])) b
        else Joi.mkResult None b
    end;
|}.

(** Route parameters are strings; the two that the requests use. *)
Definition globais : Globals := {|
  Number v :=
    match v with
    | VStr s => if decide (s = "1") then VNum 1
                else if decide (s = "2") then VNum 2 else VUndef
    | _ => VUndef
    end;
|}.

Definition casa : JsObject :=
  {[ "id" := VNum 1; "nome" := VStr "Casa"; "descricao" := VStr "Abrigo";
     "endereco_cidade" := VStr "Recife"; "endereco_estado" := VStr "PE";
     "cnpj" := VStr "00.000.000/0001-00"; "telefone" := VStr "8130000000";
     "email" := VStr "casa@x.org" ]}.

Definition nova : JsObject :=
  {[ "nome" := VStr "Nova"; "descricao" := VStr "Escola";
     "endereco_cidade" := VStr "Olinda"; "endereco_estado" := VStr "PE";
     "cnpj" := VStr "11.111.111/0001-11"; "telefone" := VStr "8131111111";
     "email" := VStr "nova@x.org" ]}.

Definition inicio : @OngController.Estado servico :=
  OngController.mkEstado (H:=servico) {[ 1%Z := casa ]} [].

Definition pedido (id : string) (b : JsObject) : Request :=
  mkRequest {[ "id" := VStr id ]} b.

(** A token service whose [verify] accepts a token of another issuer: the
    payload has no [usuario]. *)
Definition outro_emissor : Collaborators := {|
  World := SpecCollaborators.SpecWorld;
  Token := SpecCollaborators.SpecToken;
  buscarPorEmail := @buscarPorEmail Exemplo.servico;
  gerarToken := @gerarToken Exemplo.servico;
  gerarRefreshToken := @gerarRefreshToken Exemplo.servico;
  verify _ _ := ret {[ "sub" := CVal (VStr "a@x.com") ]};
  SECRET_REFRESH := @SECRET_REFRESH Exemplo.servico;
|}.

(** A repository without its signing secret: issuing a token throws. *)
Definition sem_segredo : Collaborators := {|
  World := SpecCollaborators.SpecWorld;
  Token := SpecCollaborators.SpecToken;
  buscarPorEmail := @buscarPorEmail Exemplo.servico;
  gerarToken _ := throw (mkError "secretOrPrivateKey must have a value");
  gerarRefreshToken := @gerarRefreshToken Exemplo.servico;
  verify := @verify Exemplo.servico;
  SECRET_REFRESH := @SECRET_REFRESH Exemplo.servico;
|}.

(** Ana's credentials with a field the service does not read. *)
Definition credenciais_com_perfil : JsObject :=
  <[ "perfil" := VStr "admin" ]> Exemplo.credenciais_ana.

End ExemploOng.

(** * Properties *)

(** ** JavaScript values and computations *)

Lemma strict_eq_spec (a b : JsVal) : strict_eq a b = true ↔ a = b.
Proof.
  destruct a, b; simpl; try (split; congruence).
  - rewrite Bool.eqb_true_iff. split; congruence.
  - rewrite Z.eqb_eq. split; congruence.
  - rewrite String.eqb_eq. split; congruence.
Qed.

Lemma strict_eq_false (a b : JsVal) : strict_eq a b = false ↔ a ≠ b.
Proof.
  rewrite <- strict_eq_spec. destruct (strict_eq a b); split; congruence.
Qed.

Section Computations.
Context {W A B : Type}.
Implicit Types (c : M W A) (k : A → M W B) (w : W).

Lemma bind_normal c k w a w1 :
  c w = (Normal a, w1) → bind c k w = k a w1.
Proof. unfold bind. now intros ->. Qed.

Lemma bind_throw c k w e w1 :
  c w = (Throw e, w1) → bind c k w = (Throw e, w1).
Proof. unfold bind. now intros ->. Qed.

Lemma bind_normal_inv c k w b w' :
  bind c k w = (Normal b, w') →
  ∃ a w1, c w = (Normal a, w1) ∧ k a w1 = (Normal b, w').
Proof.
  unfold bind. destruct (c w) as [[a|e] w1]; [eauto | discriminate].
Qed.

Lemma bind_throw_inv c k w e w' :
  bind c k w = (Throw e, w') →
  c w = (Throw e, w') ∨ ∃ a w1, c w = (Normal a, w1) ∧ k a w1 = (Throw e, w').
Proof.
  unfold bind. destruct (c w) as [[a|e0] w1]; [eauto | intros [= -> ->]; eauto].
Qed.

End Computations.

(** ** The public profile *)

Section Profile.
Import AutenticacaoService.

Lemma perfil_publico_id (u : JsObject) :
  get (perfil_publico u) "id" = get u "id".
Proof. reflexivity. Qed.

Lemma perfil_publico_email (u : JsObject) :
  get (perfil_publico u) "email" = get u "email".
Proof. unfold perfil_publico, get at 1. now simplify_map_eq. Qed.

Lemma perfil_publico_nome (u : JsObject) :
  get (perfil_publico u) "nome" = get u "nome".
Proof. unfold perfil_publico, get at 1. now simplify_map_eq. Qed.

Lemma perfil_publico_perfil (u : JsObject) :
  get (perfil_publico u) "perfil" = get u "perfil".
Proof. unfold perfil_publico, get at 1. now simplify_map_eq. Qed.

Lemma perfil_publico_dom (u : JsObject) :
  dom (perfil_publico u) = ({[ "id"; "email"; "nome"; "perfil" ]} : gset string).
Proof.
  unfold perfil_publico. rewrite !dom_insert_L, dom_singleton_L.
  now rewrite !(assoc_L (∪)).
Qed.

Lemma perfil_publico_sem_senha (u : JsObject) :
  perfil_publico u !! "senha" = None.
Proof. unfold perfil_publico. now simplify_map_eq. Qed.

End Profile.

(** ** The operations, for every set of collaborators *)

Section ServiceProperties.
Context `{Collaborators}.
Import AutenticacaoService (login, sessao, perfil_publico, usuario_email,
  refreshToken_try, invalid_credentials, invalid_refresh_token).

Implicit Types (u U credenciais : JsObject) (w : World) (t r : Token).

(** The shared [return] statement yields a bundle exactly when both
    tokens are issued. *)
Lemma sessao_normal u w t w1 r w2 :
  gerarToken u w = (Normal t, w1) →
  gerarRefreshToken u w1 = (Normal r, w2) →
  sessao u w = (Normal (RBundle (mkBundle t (perfil_publico u) r)), w2).
Proof.
  intros Ht Hr. unfold sessao.
  rewrite (bind_normal _ _ _ _ _ Ht). cbv zeta.
  now rewrite (bind_normal _ _ _ _ _ Hr).
Qed.

Lemma sessao_normal_inv u w res w' :
  sessao u w = (Normal res, w') →
  ∃ t w1 r,
    gerarToken u w = (Normal t, w1) ∧
    gerarRefreshToken u w1 = (Normal r, w') ∧
    res = RBundle (mkBundle t (perfil_publico u) r).
Proof.
  unfold sessao. intros Hs.
  apply bind_normal_inv in Hs as (t & w1 & Ht & Hs). cbv zeta in Hs.
  apply bind_normal_inv in Hs as (r & w2 & Hr & Hs).
  unfold ret in Hs. injection Hs as <- <-. eauto 6.
Qed.

(** How [login] ends once the lookup has returned. *)
Lemma login_after_lookup credenciais w found w1 :
  buscarPorEmail (get credenciais "email") w = (Normal found, w1) →
  login credenciais w =
    match found with
    | Some u =>
        if strict_eq (get u "senha") (get credenciais "senha")
        then sessao u w1
        else (Throw invalid_credentials, w1)
    | None => (Throw invalid_credentials, w1)
    end.
Proof.
  intros Hl. unfold login. rewrite (bind_normal _ _ _ _ _ Hl).
  destruct found as [u|]; [|reflexivity].
  now destruct (strict_eq _ _).
Qed.

Lemma login_normal_inv credenciais w res w' :
  login credenciais w = (Normal res, w') →
  ∃ U w1,
    buscarPorEmail (get credenciais "email") w = (Normal (Some U), w1) ∧
    get U "senha" = get credenciais "senha" ∧
    sessao U w1 = (Normal res, w').
Proof.
  intros Hlogin.
  destruct (buscarPorEmail (get credenciais "email") w) as [[found|e] w1] eqn:Hl.
  - rewrite (login_after_lookup _ _ _ _ Hl) in Hlogin.
    destruct found as [U|]; [|discriminate].
    destruct (strict_eq _ _) eqn:Hs; [|discriminate].
    apply strict_eq_spec in Hs. eauto.
  - unfold login in Hlogin. rewrite (bind_throw _ _ _ _ _ Hl) in Hlogin.
    discriminate.
Qed.

(** C2: whenever the lookup by the given email returns a stored record U
    and the presented senha equals U's stored senha, login resolves with a
    bundle that holds the access token and the refresh token issued for U
    and a public profile whose id, email, nome and perfil are those of U
    (token issuance, done by the repository, is taken to return). *)
Theorem login_returns_bundle_of_record credenciais U w w1 t w2 r w3 :
  buscarPorEmail (get credenciais "email") w = (Normal (Some U), w1) →
  get credenciais "senha" = get U "senha" →
  gerarToken U w1 = (Normal t, w2) →
  gerarRefreshToken U w2 = (Normal r, w3) →
  ∃ b, login credenciais w = (Normal (RBundle b), w3) ∧
       token b = t ∧
       refreshToken b = r ∧
       get (usuario b) "id" = get U "id" ∧
       get (usuario b) "email" = get U "email" ∧
       get (usuario b) "nome" = get U "nome" ∧
       get (usuario b) "perfil" = get U "perfil".
Proof.
  intros Hl Hsenha Ht Hr.
  exists (mkBundle t (perfil_publico U) r).
  rewrite (login_after_lookup _ _ _ _ Hl).
  assert (strict_eq (get U "senha") (get credenciais "senha") = true) as ->
    by now apply strict_eq_spec.
  rewrite (sessao_normal _ _ _ _ _ _ Ht Hr). simpl.
  repeat split;
    auto using perfil_publico_id, perfil_publico_email,
               perfil_publico_nome, perfil_publico_perfil.
Qed.

(** C3: a login that fails because the lookup finds no record, and a login
    that fails because a record is found whose senha differs from the
    presented one, reject with one and the same error, 'Email ou senha
    inválidos'. *)
Theorem login_failure_is_uniform credenciais w w1 :
  buscarPorEmail (get credenciais "email") w = (Normal None, w1) ∨
  (∃ U, buscarPorEmail (get credenciais "email") w = (Normal (Some U), w1) ∧
        get U "senha" ≠ get credenciais "senha") →
  login credenciais w = (Throw invalid_credentials, w1) ∧
  message invalid_credentials = "Email ou senha inválidos".
Proof.
  intros [Hl | (U & Hl & Hne)]; rewrite (login_after_lookup _ _ _ _ Hl).
  - now split.
  - apply strict_eq_false in Hne. now rewrite Hne.
Qed.

(** C10: with token issuance returning, login resolves exactly when the
    lookup by the given email returns a record whose senha is strictly
    equal to the presented senha; it then resolves with a complete bundle
    (both tokens and the profile of that record), never with undefined;
    in every other case it rejects. *)
Theorem login_succeeds_iff_senha_matches credenciais w :
  (∀ u w0, ∃ t w', gerarToken u w0 = (Normal t, w')) →
  (∀ u w0, ∃ r w', gerarRefreshToken u w0 = (Normal r, w')) →
  ((∃ res w', login credenciais w = (Normal res, w')) ↔
   (∃ U w1, buscarPorEmail (get credenciais "email") w = (Normal (Some U), w1) ∧
            strict_eq (get U "senha") (get credenciais "senha") = true)) ∧
  (∀ res w', login credenciais w = (Normal res, w') →
     ∃ U t r, res = RBundle (mkBundle t (perfil_publico U) r)) ∧
  (¬ (∃ U w1, buscarPorEmail (get credenciais "email") w = (Normal (Some U), w1) ∧
              strict_eq (get U "senha") (get credenciais "senha") = true) →
   ∃ e w', login credenciais w = (Throw e, w')).
Proof.
  intros Hat Hrt. split; [split | split].
  - intros (res & w' & Hlogin).
    apply login_normal_inv in Hlogin as (U & w1 & Hl & Hs & _).
    exists U, w1. split; [assumption | now apply strict_eq_spec].
  - intros (U & w1 & Hl & Hs).
    destruct (Hat U w1) as (t & w2 & Ht).
    destruct (Hrt U w2) as (r & w3 & Hr).
    exists (RBundle (mkBundle t (perfil_publico U) r)), w3.
    rewrite (login_after_lookup _ _ _ _ Hl), Hs.
    exact (sessao_normal _ _ _ _ _ _ Ht Hr).
  - intros res w' Hlogin.
    apply login_normal_inv in Hlogin as (U & w1 & _ & _ & Hs).
    apply sessao_normal_inv in Hs as (t & w2 & r & _ & _ & ->). eauto.
  - intros Hno. destruct (login credenciais w) as [[res|e] w'] eqn:Hlogin; [|eauto].
    exfalso. apply Hno.
    apply login_normal_inv in Hlogin as (U & w1 & Hl & Hs & _).
    exists U, w1. split; [assumption | now apply strict_eq_spec].
Qed.

(** [refreshToken] runs its [try] block and replaces whatever the block
    throws. *)
Lemma refreshToken_unfold (tok : Token) w :
  AutenticacaoService.refreshToken tok w =
    match refreshToken_try tok w with
    | (Normal res, w') => (Normal res, w')
    | (Throw _, w') => (Throw invalid_refresh_token, w')
    end.
Proof. reflexivity. Qed.

(** How the [try] block ends once verification, the read of the email and
    the lookup have returned. *)
Lemma refreshToken_try_after_lookup (tok : Token) w decoded w1 email found w2 :
  verify tok SECRET_REFRESH w = (Normal decoded, w1) →
  usuario_email decoded = Normal email →
  buscarPorEmail email w1 = (Normal found, w2) →
  refreshToken_try tok w =
    match found with
    | Some u => sessao u w2
    | None => (Normal RUndefined, w2)
    end.
Proof.
  intros Hv He Hl. unfold refreshToken_try.
  rewrite (bind_normal _ _ _ _ _ Hv).
  rewrite (bind_normal (lift (usuario_email decoded)) _ w1 email w1)
    by (unfold lift; now rewrite He).
  rewrite (bind_normal _ _ _ _ _ Hl).
  now destruct found.
Qed.

Lemma refreshToken_try_bundle_inv (tok : Token) w b w' :
  refreshToken_try tok w = (Normal (RBundle b), w') →
  ∃ decoded w1 email U w2,
    verify tok SECRET_REFRESH w = (Normal decoded, w1) ∧
    usuario_email decoded = Normal email ∧
    buscarPorEmail email w1 = (Normal (Some U), w2) ∧
    sessao U w2 = (Normal (RBundle b), w').
Proof.
  unfold refreshToken_try. intros Hr.
  apply bind_normal_inv in Hr as (decoded & w1 & Hv & Hr).
  apply bind_normal_inv in Hr as (email & w1' & He & Hr).
  unfold lift in He. injection He as He <-.
  apply bind_normal_inv in Hr as (found & w2 & Hl & Hr).
  destruct found as [U|]; [|discriminate].
  exists decoded, w1, email, U, w2. auto.
Qed.

(** C1: when the presented token verifies against the refresh secret and
    the lookup by its embedded email finds no record, refreshToken does not
    reject: the [if (usuario)] has no other branch, the [try] block ends
    without a [return], and the promise resolves with undefined. *)
Theorem refreshToken_unknown_user_resolves_undefined
    (tok : Token) w decoded w1 email w2 :
  verify tok SECRET_REFRESH w = (Normal decoded, w1) →
  usuario_email decoded = Normal email →
  buscarPorEmail email w1 = (Normal None, w2) →
  AutenticacaoService.refreshToken tok w = (Normal RUndefined, w2).
Proof.
  intros Hv He Hl. rewrite refreshToken_unfold.
  now rewrite (refreshToken_try_after_lookup _ _ _ _ _ _ _ Hv He Hl).
Qed.

(** C4: whatever error the verification of the presented token throws
    (malformed, invalid signature, expired), refreshToken rejects with the
    one error 'Refresh Token inválido', which does not depend on it. *)
Theorem refreshToken_verification_failure (tok : Token) w e w1 :
  verify tok SECRET_REFRESH w = (Throw e, w1) →
  AutenticacaoService.refreshToken tok w = (Throw invalid_refresh_token, w1) ∧
  message invalid_refresh_token = "Refresh Token inválido".
Proof.
  intros Hv. rewrite refreshToken_unfold. unfold refreshToken_try.
  now rewrite (bind_throw _ _ _ _ _ Hv).
Qed.

(** When [decoded.usuario.email] yields a value, that value is the [email]
    property of the object under [usuario] in the payload, or [undefined]
    when a primitive stands there. *)
Lemma usuario_email_normal_inv (decoded : Decoded) (email : JsVal) :
  usuario_email decoded = Normal email →
  (∃ o, decoded !! "usuario" = Some (CObj o) ∧ email = get o "email") ∨
  (∃ v, decoded !! "usuario" = Some (CVal v) ∧ v ≠ VUndef ∧ v ≠ VNull ∧
        email = VUndef).
Proof.
  unfold usuario_email.
  destruct (decoded !! "usuario") as [[v|o]|]; [|intros [= <-]; eauto|discriminate].
  destruct v; try discriminate; intros [= <-]; right; eexists; eauto.
Qed.

(** C6: a refresh that resolves with a bundle has looked the user up anew,
    with the [email] property of the [usuario] object inside the verified
    token's payload as the key ([undefined] when a primitive stands
    there), and built the bundle from the record U that this lookup
    returned: both tokens are issued for U and the profile's id, email,
    nome and perfil are those of U, not those of the payload. *)
Theorem refreshToken_rebuilds_from_lookup (tok : Token) w b w' :
  AutenticacaoService.refreshToken tok w = (Normal (RBundle b), w') →
  ∃ decoded w1 email U w2 w3,
    verify tok SECRET_REFRESH w = (Normal decoded, w1) ∧
    ((∃ o, decoded !! "usuario" = Some (CObj o) ∧ email = get o "email") ∨
     (∃ v, decoded !! "usuario" = Some (CVal v) ∧ v ≠ VUndef ∧ v ≠ VNull ∧
           email = VUndef)) ∧
    buscarPorEmail email w1 = (Normal (Some U), w2) ∧
    gerarToken U w2 = (Normal (token b), w3) ∧
    gerarRefreshToken U w3 = (Normal (refreshToken b), w') ∧
    get (usuario b) "id" = get U "id" ∧
    get (usuario b) "email" = get U "email" ∧
    get (usuario b) "nome" = get U "nome" ∧
    get (usuario b) "perfil" = get U "perfil".
Proof.
  rewrite refreshToken_unfold. intros Hr.
  destruct (refreshToken_try tok w) as [[res|e] w0] eqn:Htry; [|discriminate].
  injection Hr as -> ->.
  apply refreshToken_try_bundle_inv in Htry
    as (decoded & w1 & email & U & w2 & Hv & He & Hl & Hs).
  apply usuario_email_normal_inv in He.
  apply sessao_normal_inv in Hs as (t & w3 & r & Ht & Hr & [= ->]).
  exists decoded, w1, email, U, w2, w3. simpl.
  split; [exact Hv|]. split; [exact He|].
  repeat split;
    auto using perfil_publico_id, perfil_publico_email,
               perfil_publico_nome, perfil_publico_perfil.
Qed.

(** C9: every exception raised inside refreshToken (its whole body is the
    [try] block) is replaced by 'Refresh Token inválido'; in particular an
    error thrown by the lookup itself is reported like an invalid token,
    and no other error ever leaves the operation. *)
Theorem refreshToken_reports_every_exception (tok : Token) w :
  (∀ e w', refreshToken_try tok w = (Throw e, w') →
     AutenticacaoService.refreshToken tok w = (Throw invalid_refresh_token, w')) ∧
  (∀ decoded w1 email e w2,
     verify tok SECRET_REFRESH w = (Normal decoded, w1) →
     usuario_email decoded = Normal email →
     buscarPorEmail email w1 = (Throw e, w2) →
     AutenticacaoService.refreshToken tok w = (Throw invalid_refresh_token, w2)) ∧
  (∀ e w', AutenticacaoService.refreshToken tok w = (Throw e, w') →
     e = invalid_refresh_token ∧ ∃ e0, refreshToken_try tok w = (Throw e0, w')).
Proof.
  rewrite refreshToken_unfold. split; [|split].
  - intros e w' ->. reflexivity.
  - intros decoded w1 email e w2 Hv He Hl. unfold refreshToken_try.
    rewrite (bind_normal _ _ _ _ _ Hv).
    rewrite (bind_normal (lift (usuario_email decoded)) _ w1 email w1)
      by (unfold lift; now rewrite He).
    now rewrite (bind_throw _ _ _ _ _ Hl).
  - intros e w'.
    destruct (refreshToken_try tok w) as [[res|e0] w0]; [discriminate|].
    intros [= <- <-]. eauto.
Qed.

(** A bundle that either operation resolves with is made of the two
    tokens issued for some record and of the object literal built from
    it. *)
Lemma bundle_origin (b : SessionBundle Token) w w' :
  (∃ credenciais, login credenciais w = (Normal (RBundle b), w')) ∨
  (∃ tok, AutenticacaoService.refreshToken tok w = (Normal (RBundle b), w')) →
  ∃ U w1 w2,
    gerarToken U w1 = (Normal (token b), w2) ∧
    gerarRefreshToken U w2 = (Normal (refreshToken b), w') ∧
    usuario b = perfil_publico U.
Proof.
  intros [(credenciais & Hlogin) | (tok & Hr)].
  - apply login_normal_inv in Hlogin as (U & w1 & _ & _ & Hs).
    apply sessao_normal_inv in Hs as (t & w2 & r & Ht & Hr & [= ->]).
    exists U, w1, w2. auto.
  - rewrite refreshToken_unfold in Hr.
    destruct (refreshToken_try tok w) as [[res|e] w0] eqn:Htry; [|discriminate].
    injection Hr as -> ->.
    apply refreshToken_try_bundle_inv in Htry
      as (decoded & w1 & email & U & w2 & _ & _ & _ & Hs).
    apply sessao_normal_inv in Hs as (t & w3 & r & Ht & Hr & [= ->]).
    exists U, w2, w3. auto.
Qed.

End ServiceProperties.

(** ** Frame: what the operations leave unchanged *)

Section ComputationsFrame.
Context {W V : Type} (view : W → V).

Lemma preserves_ret {A} (a : A) : preserves view (ret a).
Proof. now intros w. Qed.

Lemma preserves_throw {A} (e : JsError) : preserves view (throw (A:=A) e).
Proof. now intros w. Qed.

Lemma preserves_lift {A} (c : Completion A) : preserves view (lift c).
Proof. now intros w. Qed.

Lemma preserves_bind {A B} (c : M W A) (k : A → M W B) :
  preserves view c → (∀ a, preserves view (k a)) → preserves view (bind c k).
Proof.
  intros Hc Hk w. unfold bind. specialize (Hc w).
  destruct (c w) as [[a|e] w1]; simpl in *; [|assumption].
  now rewrite Hk.
Qed.

Lemma preserves_try_catch {A} (body : M W A) (handler : JsError → M W A) :
  preserves view body → (∀ e, preserves view (handler e)) →
  preserves view (try_catch body handler).
Proof.
  intros Hb Hh w. unfold try_catch. specialize (Hb w).
  destruct (body w) as [[a|e] w1]; simpl in *; [assumption|].
  now rewrite Hh.
Qed.

End ComputationsFrame.

Section Frame.
Context `{Collaborators} {V : Type} (view : World → V).
Import AutenticacaoService (login, sessao, refreshToken_try).

(** The collaborators only read: looking a user up, issuing a token and
    verifying one leave the view as it is. *)
Hypothesis lookup_reads : ∀ email, preserves view (buscarPorEmail email).
Hypothesis access_issue_reads : ∀ u, preserves view (gerarToken u).
Hypothesis refresh_issue_reads : ∀ u, preserves view (gerarRefreshToken u).
Hypothesis verify_reads : ∀ tok secret, preserves view (verify tok secret).

Lemma sessao_preserves (u : JsObject) : preserves view (sessao u).
Proof.
  unfold sessao. apply preserves_bind; [apply access_issue_reads|].
  intros t. cbv zeta. apply preserves_bind; [apply refresh_issue_reads|].
  intros r. apply preserves_ret.
Qed.

(** C8: login and refreshToken write nothing of their own.  Their only
    effects are the collaborators' calls (lookups, token issuance,
    verification); when those leave a view of the world unchanged (the
    contents of the credential store, any record of tokens), so does every
    invocation, whether it resolves or rejects. *)
Theorem service_mutates_nothing (credenciais : JsObject) (tok : Token) (w : World) :
  view (login credenciais w).2 = view w ∧
  view (AutenticacaoService.refreshToken tok w).2 = view w.
Proof.
  split.
  - revert w. change (preserves view (login credenciais)). unfold login.
    apply preserves_bind; [apply lookup_reads|].
    intros [u|]; [|apply preserves_throw].
    destruct (strict_eq _ _); [apply sessao_preserves | apply preserves_throw].
  - revert w. change (preserves view (AutenticacaoService.refreshToken tok)).
    unfold AutenticacaoService.refreshToken.
    apply preserves_try_catch; [|intros e; apply preserves_throw].
    unfold refreshToken_try.
    apply preserves_bind; [apply verify_reads|]. intros decoded.
    apply preserves_bind; [apply preserves_lift|]. intros email.
    apply preserves_bind; [apply lookup_reads|].
    intros [u|]; [apply sessao_preserves | apply preserves_ret].
Qed.

End Frame.

(** ** The token codec of the specification *)

Section CodecProperties.
Context {Sig : Type} `{EqDecision Sig}.
Variable mac : string → string * TokenCodec.Payload → Sig.
Import TokenCodec (Payload, mkPayload, exp, InvalidSignature, Expired).

Implicit Types (c : JsObject) (secret : string) (ttl now : Z).

(** A token verifies under the secret it was issued with until it
    expires. *)
Lemma verify_issue_same_secret c secret ttl now now' :
  (now' < now + ttl)%Z →
  TokenCodec.verify mac (TokenCodec.issue mac c secret ttl now) secret now'
  = inl (mkPayload c now (now + ttl)).
Proof.
  intros Hlt. unfold TokenCodec.verify, TokenCodec.issue. cbv zeta.
  rewrite decide_True by reflexivity.
  rewrite decide_False by (simpl; lia). reflexivity.
Qed.

Lemma verify_issue_expired c secret ttl now now' :
  (now + ttl ≤ now')%Z →
  TokenCodec.verify mac (TokenCodec.issue mac c secret ttl now) secret now'
  = inr Expired.
Proof.
  intros Hle. unfold TokenCodec.verify, TokenCodec.issue. cbv zeta.
  rewrite decide_True by reflexivity.
  now rewrite decide_True by (simpl; lia).
Qed.

(** The signature scheme keeps secrets apart: two secrets that sign one
    content alike are the same secret. *)
Hypothesis mac_separates_secrets :
  ∀ k k' content, mac k content = mac k' content → k = k'.

(** C5: with two distinct secrets, a token issued with the access secret is
    rejected under the refresh secret with a signature failure, and the
    other way round, for every claims payload, lifetime, time of issue and
    time of verification (so also once the token has expired). *)
Theorem cross_secret_never_verifies
    (accessSecret refreshSecret : string) c ttl now now' :
  accessSecret ≠ refreshSecret →
  TokenCodec.verify mac (TokenCodec.issue mac c accessSecret ttl now)
                    refreshSecret now' = inr InvalidSignature ∧
  TokenCodec.verify mac (TokenCodec.issue mac c refreshSecret ttl now)
                    accessSecret now' = inr InvalidSignature.
Proof.
  intros Hne. unfold TokenCodec.verify, TokenCodec.issue. cbv zeta.
  split; rewrite decide_False; try reflexivity.
  - intros Heq. apply mac_separates_secrets in Heq. congruence.
  - intros Heq. apply mac_separates_secrets in Heq. congruence.
Qed.

End CodecProperties.

Lemma symbolic_mac_separates_secrets k k' content :
  SpecCollaborators.symbolic_mac k content
  = SpecCollaborators.symbolic_mac k' content → k = k'.
Proof. unfold SpecCollaborators.symbolic_mac. congruence. Qed.

Lemma claimsOf_dom (u : JsObject) :
  dom (SpecCollaborators.claimsOf u)
  = ({[ "id"; "email"; "nome"; "perfil" ]} : gset string).
Proof.
  unfold SpecCollaborators.claimsOf.
  rewrite !dom_insert_L, dom_singleton_L. now rewrite !(assoc_L (∪)).
Qed.

Lemma claimsOf_sem_senha (u : JsObject) :
  SpecCollaborators.claimsOf u !! "senha" = None.
Proof. unfold SpecCollaborators.claimsOf. now simplify_map_eq. Qed.

(** ** What a bundle exposes *)

(** C7: the public profile of a bundle that login or refreshToken resolves
    with has exactly the properties id, email, nome and perfil, and so no
    senha, whatever the stored record holds; and with tokens issued as the
    specification describes, the claims inside both tokens of the bundle
    have exactly these four properties too. *)
Theorem profile_and_claims_exclude_senha :
  (∀ (C : Collaborators) (b : SessionBundle Token) (w w' : World),
     (∃ credenciais,
        AutenticacaoService.login credenciais w = (Normal (RBundle b), w')) ∨
     (∃ tok,
        AutenticacaoService.refreshToken tok w = (Normal (RBundle b), w')) →
     dom (usuario b) = ({[ "id"; "email"; "nome"; "perfil" ]} : gset string) ∧
     usuario b !! "senha" = None) ∧
  (∀ (cfg : SpecCollaborators.Config) (b : SessionBundle SpecCollaborators.SpecToken)
     (w w' : SpecCollaborators.SpecWorld),
     (∃ credenciais,
        AutenticacaoService.login (H:=SpecCollaborators.collaborators cfg)
          credenciais w = (Normal (RBundle b), w')) ∨
     (∃ tok,
        AutenticacaoService.refreshToken (H:=SpecCollaborators.collaborators cfg)
          tok w = (Normal (RBundle b), w')) →
     ∃ ca cr,
       SpecCollaborators.claims_in (token b) = Some ca ∧
       SpecCollaborators.claims_in (refreshToken b) = Some cr ∧
       dom ca = ({[ "id"; "email"; "nome"; "perfil" ]} : gset string) ∧
       ca !! "senha" = None ∧
       dom cr = ({[ "id"; "email"; "nome"; "perfil" ]} : gset string) ∧
       cr !! "senha" = None).
Proof.
  split.
  - intros C b w w' Hb.
    apply bundle_origin in Hb as (U & w1 & w2 & _ & _ & ->).
    split; [apply perfil_publico_dom | apply perfil_publico_sem_senha].
  - intros cfg b w w' Hb.
    apply (bundle_origin (H:=SpecCollaborators.collaborators cfg)) in Hb
      as (U & w1 & w2 & Ht & Hr & _).
    simpl in Ht, Hr. injection Ht as <- _. injection Hr as <- _.
    exists (SpecCollaborators.claimsOf U), (SpecCollaborators.claimsOf U).
    repeat split; auto using claimsOf_dom, claimsOf_sem_senha.
Qed.

(** ** The properties on the concrete deployment *)

Section Witnesses.
Import Exemplo SpecCollaborators.
Import AutenticacaoService (login, perfil_publico, usuario_email,
  invalid_credentials, invalid_refresh_token).

(** Ana's refresh token decodes to her earlier row, with her email. *)
Lemma refresh_ana_verifies :
  @verify servico refresh_ana (@SECRET_REFRESH servico) mundo
  = (Normal (decoded_of payload_ana_antes), mundo).
Proof. vm_compute. reflexivity. Qed.

Lemma refresh_ana_email :
  usuario_email (decoded_of payload_ana_antes) = Normal (VStr "a@x.com").
Proof. vm_compute. reflexivity. Qed.

Lemma login_ana :
  @login servico credenciais_ana mundo = (Normal (RBundle sessao_ana), mundo).
Proof. vm_compute. reflexivity. Qed.

Lemma refresh_ana_resolves :
  @AutenticacaoService.refreshToken servico refresh_ana mundo
  = (Normal (RBundle sessao_ana), mundo).
Proof. vm_compute. reflexivity. Qed.

(** The access token of the new bundle verifies under the access secret
    and carries Ana's current claims. *)
Lemma novo_access_verifies :
  TokenCodec.verify symbolic_mac (token sessao_ana) (accessSecret cfg) 1000
  = inl (TokenCodec.mkPayload (claimsOf ana) 1000 4600).
Proof. vm_compute. reflexivity. Qed.

(** The failing run of C1: Ana's row is gone, her token still verifies. *)
Lemma refreshToken_unknown_user_witness :
  @verify servico refresh_ana (@SECRET_REFRESH servico) mundo_sem_ana
    = (Normal (decoded_of payload_ana_antes), mundo_sem_ana) ∧
  usuario_email (decoded_of payload_ana_antes) = Normal (VStr "a@x.com") ∧
  @buscarPorEmail servico (VStr "a@x.com") mundo_sem_ana
    = (Normal None, mundo_sem_ana) ∧
  @AutenticacaoService.refreshToken servico refresh_ana mundo_sem_ana
    = (Normal RUndefined, mundo_sem_ana).
Proof.
  assert (H1 : @verify servico refresh_ana (@SECRET_REFRESH servico) mundo_sem_ana
               = (Normal (decoded_of payload_ana_antes), mundo_sem_ana))
    by (vm_compute; reflexivity).
  assert (H2 : usuario_email (decoded_of payload_ana_antes) = Normal (VStr "a@x.com"))
    by (vm_compute; reflexivity).
  assert (H3 : @buscarPorEmail servico (VStr "a@x.com") mundo_sem_ana
               = (Normal None, mundo_sem_ana))
    by (vm_compute; reflexivity).
  exact (conj H1 (conj H2 (conj H3
    (@refreshToken_unknown_user_resolves_undefined servico
       refresh_ana mundo_sem_ana _ _ _ _ H1 H2 H3)))).
Defined.

Lemma login_returns_bundle_of_record_witness :
  @buscarPorEmail servico (get credenciais_ana "email") mundo
    = (Normal (Some ana), mundo) ∧
  get credenciais_ana "senha" = get ana "senha" ∧
  ∃ b, @login servico credenciais_ana mundo = (Normal (RBundle b), mundo) ∧
       token b = novo_access ∧
       refreshToken b = novo_refresh ∧
       get (usuario b) "id" = get ana "id" ∧
       get (usuario b) "email" = get ana "email" ∧
       get (usuario b) "nome" = get ana "nome" ∧
       get (usuario b) "perfil" = get ana "perfil".
Proof.
  assert (H1 : @buscarPorEmail servico (get credenciais_ana "email") mundo
               = (Normal (Some ana), mundo)) by (vm_compute; reflexivity).
  assert (H2 : get credenciais_ana "senha" = get ana "senha")
    by (vm_compute; reflexivity).
  refine (conj H1 (conj H2
    (@login_returns_bundle_of_record servico credenciais_ana ana
       mundo mundo novo_access mundo novo_refresh mundo H1 H2 _ _)));
    vm_compute; reflexivity.
Defined.

(** Both ways to fail: an unknown email, and a wrong senha. *)
Lemma login_failure_is_uniform_witness :
  @login servico credenciais_desconhecidas mundo = (Throw invalid_credentials, mundo) ∧
  @login servico credenciais_erradas mundo = (Throw invalid_credentials, mundo).
Proof.
  split.
  - refine (proj1 (@login_failure_is_uniform servico
                     credenciais_desconhecidas mundo mundo (or_introl _))).
    vm_compute. reflexivity.
  - refine (proj1 (@login_failure_is_uniform servico
                     credenciais_erradas mundo mundo
                     (or_intror (ex_intro _ ana (conj _ _))))).
    + vm_compute. reflexivity.
    + vm_compute. discriminate.
Defined.

(** The three ways a token fails to verify: it does not decode, it was
    signed with the access secret, it has expired. *)
Lemma refreshToken_verification_failure_witness :
  @AutenticacaoService.refreshToken servico (TokenCodec.Undecodable "abc") mundo
    = (Throw invalid_refresh_token, mundo) ∧
  @AutenticacaoService.refreshToken servico access_ana mundo
    = (Throw invalid_refresh_token, mundo) ∧
  @AutenticacaoService.refreshToken servico refresh_expirado mundo
    = (Throw invalid_refresh_token, mundo).
Proof.
  split; [|split].
  - refine (proj1 (@refreshToken_verification_failure servico _ mundo
                     (error_of TokenCodec.Malformed) mundo _)).
    vm_compute. reflexivity.
  - refine (proj1 (@refreshToken_verification_failure servico _ mundo
                     (error_of TokenCodec.InvalidSignature) mundo _)).
    vm_compute. reflexivity.
  - refine (proj1 (@refreshToken_verification_failure servico _ mundo
                     (error_of TokenCodec.Expired) mundo _)).
    vm_compute. reflexivity.
Defined.

Lemma cross_secret_never_verifies_witness :
  accessSecret cfg ≠ refreshSecret cfg ∧
  TokenCodec.verify symbolic_mac
    (TokenCodec.issue symbolic_mac (claimsOf ana) (accessSecret cfg) 3600 1000)
    (refreshSecret cfg) 1001 = inr TokenCodec.InvalidSignature ∧
  TokenCodec.verify symbolic_mac
    (TokenCodec.issue symbolic_mac (claimsOf ana) (refreshSecret cfg) 3600 1000)
    (accessSecret cfg) 1001 = inr TokenCodec.InvalidSignature.
Proof.
  assert (Hne : accessSecret cfg ≠ refreshSecret cfg)
    by (vm_compute; discriminate).
  exact (conj Hne
    (cross_secret_never_verifies symbolic_mac symbolic_mac_separates_secrets
       (accessSecret cfg) (refreshSecret cfg) (claimsOf ana) 3600 1000 1001 Hne)).
Defined.

(** Ana's token says staff, her row says admin: the lookup is keyed by the
    email in the token, and the bundle says admin. *)
Lemma refreshToken_rebuilds_from_lookup_witness :
  claims_in refresh_ana = Some (claimsOf ana_antes) ∧
  get (claimsOf ana_antes) "email" = VStr "a@x.com" ∧
  get (claimsOf ana_antes) "perfil" = VStr "staff" ∧
  get (usuario sessao_ana) "perfil" = VStr "admin" ∧
  claims_in (token sessao_ana) = Some (claimsOf ana) ∧
  ∃ decoded w1 email U w2 w3,
    @verify servico refresh_ana (@SECRET_REFRESH servico) mundo
      = (Normal decoded, w1) ∧
    ((∃ o, decoded !! "usuario" = Some (CObj o) ∧ email = get o "email") ∨
     (∃ v, decoded !! "usuario" = Some (CVal v) ∧ v ≠ VUndef ∧ v ≠ VNull ∧
           email = VUndef)) ∧
    @buscarPorEmail servico email w1 = (Normal (Some U), w2) ∧
    @gerarToken servico U w2 = (Normal (token sessao_ana), w3) ∧
    @gerarRefreshToken servico U w3 = (Normal (refreshToken sessao_ana), mundo) ∧
    get (usuario sessao_ana) "id" = get U "id" ∧
    get (usuario sessao_ana) "email" = get U "email" ∧
    get (usuario sessao_ana) "nome" = get U "nome" ∧
    get (usuario sessao_ana) "perfil" = get U "perfil".
Proof.
  do 5 (split; [vm_compute; reflexivity|]).
  apply (@refreshToken_rebuilds_from_lookup servico refresh_ana mundo
           sessao_ana mundo).
  vm_compute. reflexivity.
Defined.

(** Ana's row holds a senha (and a creation date); her bundle does not. *)
Lemma profile_and_claims_exclude_senha_witness :
  ana !! "senha" = Some (VStr "secret") ∧
  dom (usuario sessao_ana) = ({[ "id"; "email"; "nome"; "perfil" ]} : gset string) ∧
  usuario sessao_ana !! "senha" = None ∧
  ∃ ca cr,
    claims_in (token sessao_ana) = Some ca ∧
    claims_in (refreshToken sessao_ana) = Some cr ∧
    dom ca = ({[ "id"; "email"; "nome"; "perfil" ]} : gset string) ∧
    ca !! "senha" = None ∧
    dom cr = ({[ "id"; "email"; "nome"; "perfil" ]} : gset string) ∧
    cr !! "senha" = None.
Proof.
  split; [vm_compute; reflexivity|].
  destruct profile_and_claims_exclude_senha as [Hprofile Hclaims].
  destruct (Hprofile servico sessao_ana mundo mundo
              (or_introl (ex_intro _ credenciais_ana login_ana)))
    as [Hdom Hsenha].
  split; [exact Hdom|]. split; [exact Hsenha|].
  exact (Hclaims cfg sessao_ana mundo mundo
           (or_intror (ex_intro _ refresh_ana refresh_ana_resolves))).
Defined.

(** The collaborators of the deployment leave the world as it is, and so
    does the service: the store and the whole world stay the same. *)
Lemma service_mutates_nothing_witness :
  (store (@login servico credenciais_ana mundo).2 = store mundo ∧
   store (@AutenticacaoService.refreshToken servico refresh_ana mundo).2
     = store mundo) ∧
  ((@login servico credenciais_erradas mundo).2 = mundo ∧
   (@AutenticacaoService.refreshToken servico access_ana mundo).2 = mundo).
Proof.
  split.
  - apply (@service_mutates_nothing servico _ store).
    + intros email w. destruct email; reflexivity.
    + intros u w. reflexivity.
    + intros u w. reflexivity.
    + intros tok secret w. simpl.
      destruct secret; try reflexivity.
      destruct (TokenCodec.verify _ _ _ _); reflexivity.
  - apply (@service_mutates_nothing servico _ (λ w, w)).
    + intros email w. destruct email; reflexivity.
    + intros u w. reflexivity.
    + intros u w. reflexivity.
    + intros tok secret w. simpl.
      destruct secret; try reflexivity.
      destruct (TokenCodec.verify _ _ _ _); reflexivity.
Defined.

(** The database is down: the lookup throws, the caller sees an invalid
    token. *)
Lemma refreshToken_reports_every_exception_witness :
  @buscarPorEmail sem_banco (VStr "a@x.com") mundo
    = (Throw (mkError "connect ECONNREFUSED"), mundo) ∧
  @AutenticacaoService.refreshToken sem_banco refresh_ana mundo
    = (Throw invalid_refresh_token, mundo).
Proof.
  assert (H3 : @buscarPorEmail sem_banco (VStr "a@x.com") mundo
               = (Throw (mkError "connect ECONNREFUSED"), mundo))
    by reflexivity.
  split; [exact H3|].
  exact (proj1 (proj2 (@refreshToken_reports_every_exception sem_banco
                         refresh_ana mundo))
           (decoded_of payload_ana_antes) mundo (VStr "a@x.com")
           (mkError "connect ECONNREFUSED") mundo
           refresh_ana_verifies refresh_ana_email H3).
Defined.

Lemma servico_issues_access (u : JsObject) (w : SpecWorld) :
  ∃ t w', @gerarToken servico u w = (Normal t, w').
Proof. eexists _, _. reflexivity. Qed.

Lemma servico_issues_refresh (u : JsObject) (w : SpecWorld) :
  ∃ r w', @gerarRefreshToken servico u w = (Normal r, w').
Proof. eexists _, _. reflexivity. Qed.

(** Ana logs in with her senha; a guess at it is rejected. *)
Lemma login_succeeds_iff_senha_matches_witness :
  (∃ res w', @login servico credenciais_ana mundo = (Normal res, w')) ∧
  (∃ e w', @login servico credenciais_erradas mundo = (Throw e, w')).
Proof.
  split.
  - apply (proj1 (@login_succeeds_iff_senha_matches servico credenciais_ana
                    mundo servico_issues_access servico_issues_refresh)).
    exists ana, mundo. split; vm_compute; reflexivity.
  - apply (proj2 (proj2 (@login_succeeds_iff_senha_matches servico
                           credenciais_erradas mundo
                           servico_issues_access servico_issues_refresh))).
    intros (U & w1 & Hl & Hs).
    assert (Hana : @buscarPorEmail servico (get credenciais_erradas "email") mundo
                   = (Normal (Some ana), mundo)) by (vm_compute; reflexivity).
    rewrite Hana in Hl. injection Hl as <- <-.
    vm_compute in Hs. discriminate.
Defined.

End Witnesses.

(** ** More on the authentication service *)

Section ServiceErrors.
Context `{Collaborators}.
Import AutenticacaoService (login, login_any, sessao, usuario_email,
  refreshToken_try, invalid_credentials, invalid_refresh_token).

Implicit Types (U credenciais : JsObject) (w : World) (e : JsError).

(** Both directions of an equivalence between an outcome and the list of
    ways to reach it, once every call has been given its completion. *)
Local Ltac break_cases :=
  repeat match goal with
         | H : _ ∨ _ |- _ => destruct H
         | H : _ ∧ _ |- _ => destruct H
         | H : ∃ _, _ |- _ => destruct H
         end.
Local Ltac by_cases :=
  split;
  [ intros ?; simplify_eq; eauto 12
  | intros ?; break_cases; simplify_eq; congruence ].

(** The rejections of [login] on an object: the error it throws itself,
    for an unknown email or a senha that differs, and the errors of its
    three awaited calls, passed on as they are. *)
Lemma login_object_rejections credenciais w e w' :
  login credenciais w = (Throw e, w') ↔
  buscarPorEmail (get credenciais "email") w = (Throw e, w') ∨
  (e = invalid_credentials ∧
   (buscarPorEmail (get credenciais "email") w = (Normal None, w') ∨
    ∃ U, buscarPorEmail (get credenciais "email") w = (Normal (Some U), w') ∧
         get U "senha" ≠ get credenciais "senha")) ∨
  (∃ U w1, buscarPorEmail (get credenciais "email") w = (Normal (Some U), w1) ∧
           get U "senha" = get credenciais "senha" ∧
           (gerarToken U w1 = (Throw e, w') ∨
            ∃ t w2, gerarToken U w1 = (Normal t, w2) ∧
                    gerarRefreshToken U w2 = (Throw e, w'))).
Proof.
  destruct (buscarPorEmail (get credenciais "email") w) as [[found|e0] w0] eqn:Hl.
  - rewrite (login_after_lookup _ _ _ _ Hl).
    destruct found as [U|]; [|by_cases].
    destruct (strict_eq (get U "senha") (get credenciais "senha")) eqn:Hs.
    + apply strict_eq_spec in Hs. unfold sessao, bind.
      destruct (gerarToken U w0) as [[t|e1] w1] eqn:Ht; [|by_cases].
      cbv zeta.
      destruct (gerarRefreshToken U w1) as [[r|e2] w2] eqn:Hr;
        unfold ret; by_cases.
    + apply strict_eq_false in Hs. by_cases.
  - unfold login. rewrite (bind_throw _ _ _ _ _ Hl). by_cases.
Qed.

(** X1: [login] has no [catch].  Called with [undefined] or [null] it
    rejects with the [TypeError] of reading [credenciais.email], the world
    untouched; called with anything else it rejects only with its own
    error, for an unknown email or a senha that differs, or with the
    error of one of its three awaited calls, passed on as it is; and each
    of these cases does make it reject. *)
Theorem login_rejections (arg : JsClaim) w e w' :
  login_any arg w = (Throw e, w') ↔
  (arg = CVal VUndef ∧ w' = w ∧
   e = mkError "Cannot read properties of undefined (reading 'email')") ∨
  (arg = CVal VNull ∧ w' = w ∧
   e = mkError "Cannot read properties of null (reading 'email')") ∨
  (∃ credenciais,
     (arg = CObj credenciais ∨
      (credenciais = ∅ ∧ ∃ v, arg = CVal v ∧ v ≠ VUndef ∧ v ≠ VNull)) ∧
     (buscarPorEmail (get credenciais "email") w = (Throw e, w') ∨
      (e = invalid_credentials ∧
       (buscarPorEmail (get credenciais "email") w = (Normal None, w') ∨
        ∃ U, buscarPorEmail (get credenciais "email") w = (Normal (Some U), w') ∧
             get U "senha" ≠ get credenciais "senha")) ∨
      (∃ U w1, buscarPorEmail (get credenciais "email") w = (Normal (Some U), w1) ∧
               get U "senha" = get credenciais "senha" ∧
               (gerarToken U w1 = (Throw e, w') ∨
                ∃ t w2, gerarToken U w1 = (Normal t, w2) ∧
                        gerarRefreshToken U w2 = (Throw e, w'))))).
Proof.
  assert (Hobj : ∀ credenciais,
            (arg = CObj credenciais ∨
             (credenciais = ∅ ∧ ∃ v, arg = CVal v ∧ v ≠ VUndef ∧ v ≠ VNull)) →
            login_any arg w = login credenciais w).
  { intros credenciais [-> | (-> & v & -> & Hu & Hn)]; [reflexivity|].
    now destruct v. }
  split.
  - intros Hrej. destruct arg as [v|o]; [destruct v|].
    1: { left. unfold login_any, throw in Hrej. now injection Hrej as <- <-. }
    1: { right. left. unfold login_any, throw in Hrej.
         now injection Hrej as <- <-. }
    all: right; right; eexists;
      (split;
       [ first [ left; reflexivity
               | right; split; [reflexivity|]; eexists; eauto ] |]);
      now apply login_object_rejections.
  - intros [(-> & -> & ->) | [(-> & -> & ->) | (credenciais & Harg & Hcases)]];
      [reflexivity | reflexivity |].
    rewrite (Hobj _ Harg). now apply login_object_rejections.
Qed.

(** X2: [login] reads the properties [email] and [senha] of its argument and
    nothing else: two bodies that agree on them end alike. *)
Theorem login_reads_email_and_senha (c1 c2 : JsObject) w :
  get c1 "email" = get c2 "email" →
  get c1 "senha" = get c2 "senha" →
  login c1 w = login c2 w.
Proof. intros He Hs. unfold login. now rewrite He, Hs. Qed.

(** X3: A token that verifies but whose payload has no [usuario] (absent,
    undefined or null) makes [decoded.usuario.email] throw; the [catch]
    reports it as an invalid refresh token, before any lookup. *)
Theorem refreshToken_without_usuario_claim (tok : Token) w decoded w1 :
  verify tok SECRET_REFRESH w = (Normal decoded, w1) →
  decoded !! "usuario" = None ∨
  decoded !! "usuario" = Some (CVal VUndef) ∨
  decoded !! "usuario" = Some (CVal VNull) →
  AutenticacaoService.refreshToken tok w = (Throw invalid_refresh_token, w1).
Proof.
  intros Hv Hu. rewrite refreshToken_unfold. unfold refreshToken_try.
  rewrite (bind_normal _ _ _ _ _ Hv).
  unfold bind at 1, lift, usuario_email.
  now destruct Hu as [-> | [-> | ->]].
Qed.


End ServiceErrors.

(** ** The handlers of OngController *)

Section ControllerProperties.
Context `{OngService.OngService} `{Joi.Joi} `{Globals}.
Import OngController (Estado, mkEstado, banco, respostas, chamar, status_json,
  status_end, details_0_message, create_schema, update_schema).

Implicit Types (req : Request) (st : Estado) (e : JsError).

(** The pattern shared by the handlers: an awaited call of the service
    and the answer [ok] with its result, inside a [try] whose [catch]
    answers [ko] with the message of the error.  It never rejects and
    sends one response. *)
Lemma try_call_json {A} (call : M OngService.World A) (ok : Z) (key : string)
    (f : A → Conteudo OngService.Dados) (ko : Z) st :
  ∃ resp w',
    try_catch
      (await x ← chamar call;
       await _ ← status_json ok key (f x);
       ret ReturnsUndefined)
      (λ error,
       await _ ← status_json ko "error" (CMensagem (message error));
       ret ReturnsUndefined) st
    = (Normal ReturnsUndefined, mkEstado w' (respostas st ++ [resp])) ∧
    ((∃ x, call (banco st) = (Normal x, w') ∧
           resp = mkResposta ok (Some (key, f x))) ∨
     (∃ e, call (banco st) = (Throw e, w') ∧
           resp = mkResposta ko (Some ("error", CMensagem (message e))))).
Proof.
  unfold try_catch, bind, chamar, status_json, ret.
  destruct (call (banco st)) as [[x|e] w'] eqn:Hc; simpl.
  - exists (mkResposta ok (Some (key, f x))), w'. split; [reflexivity|].
    left. eauto.
  - exists (mkResposta ko (Some ("error", CMensagem (message e)))), w'.
    split; [reflexivity|]. right. eauto.
Qed.

(** X5: [getAll] has no [try]: when the service returns it answers 200 with
    [{ ongs }]; when the service throws, the handler rejects with that
    error and no response is sent. *)
Theorem getAll_does_not_catch req st :
  (∃ ongs w',
     OngService.getAll (banco st) = (Normal ongs, w') ∧
     OngController.getAll req st
     = (Normal ReturnsUndefined,
        mkEstado w' (respostas st ++ [mkResposta 200 (Some ("ongs", CDados ongs))]))) ∨
  (∃ e w',
     OngService.getAll (banco st) = (Throw e, w') ∧
     OngController.getAll req st = (Throw e, mkEstado w' (respostas st))).
Proof.
  unfold OngController.getAll, bind, chamar, status_json, ret.
  destruct (OngService.getAll (banco st)) as [[ongs|e] w'] eqn:Hc; simpl.
  - left. eauto.
  - right. eauto.
Qed.

(** X6: [getById] never rejects and sends exactly one response: 200 with
    [{ ong }] when [ongService.getById(Number(req.params.id))] returns,
    404 with the message of the error when it throws. *)
Theorem getById_answers req st :
  ∃ resp w',
    OngController.getById req st
    = (Normal ReturnsUndefined, mkEstado w' (respostas st ++ [resp])) ∧
    ((∃ ong, OngService.getById (Number (get (params req) "id")) (banco st)
             = (Normal ong, w') ∧
             resp = mkResposta 200 (Some ("ong", CDados ong))) ∨
     (∃ e, OngService.getById (Number (get (params req) "id")) (banco st)
           = (Throw e, w') ∧
           resp = mkResposta 404 (Some ("error", CMensagem (message e))))).
Proof. apply (try_call_json _ 200 "ong" CDados 404). Qed.

(** X7: [getBeneficiados] never rejects and sends exactly one response: 200
    with [{ beneficiados }] when the service returns, 404 with the message
    of the error when it throws. *)
Theorem getBeneficiados_answers req st :
  ∃ resp w',
    OngController.getBeneficiados req st
    = (Normal ReturnsUndefined, mkEstado w' (respostas st ++ [resp])) ∧
    ((∃ bs, OngService.getBeneficiados (Number (get (params req) "id")) (banco st)
            = (Normal bs, w') ∧
            resp = mkResposta 200 (Some ("beneficiados", CDados bs))) ∨
     (∃ e, OngService.getBeneficiados (Number (get (params req) "id")) (banco st)
           = (Throw e, w') ∧
           resp = mkResposta 404 (Some ("error", CMensagem (message e))))).
Proof. apply (try_call_json _ 200 "beneficiados" CDados 404). Qed.

(** X8: [getProfessores] never rejects and sends exactly one response: 200
    with [{ professores }] when the service returns, and 500 (not 404)
    with the message of the error when it throws. *)
Theorem getProfessores_answers req st :
  ∃ resp w',
    OngController.getProfessores req st
    = (Normal ReturnsUndefined, mkEstado w' (respostas st ++ [resp])) ∧
    ((∃ ps, OngService.getProfessores (Number (get (params req) "id")) (banco st)
            = (Normal ps, w') ∧
            resp = mkResposta 200 (Some ("professores", CDados ps))) ∨
     (∃ e, OngService.getProfessores (Number (get (params req) "id")) (banco st)
           = (Throw e, w') ∧
           resp = mkResposta 500 (Some ("error", CMensagem (message e))))).
Proof. apply (try_call_json _ 200 "professores" CDados 500). Qed.

(** X9: [delete] never rejects and sends exactly one response: 204 without a
    body when [ongService.delete(Number(req.params.id))] returns (what it
    returns is dropped), 404 with the message of the error when it
    throws. *)
Theorem delete_answers req st :
  ∃ resp w',
    OngController.delete req st
    = (Normal ReturnsUndefined, mkEstado w' (respostas st ++ [resp])) ∧
    ((∃ x, OngService.delete (Number (get (params req) "id")) (banco st)
           = (Normal x, w') ∧
           resp = mkResposta 204 None) ∨
     (∃ e, OngService.delete (Number (get (params req) "id")) (banco st)
           = (Throw e, w') ∧
           resp = mkResposta 404 (Some ("error", CMensagem (message e))))).
Proof.
  unfold OngController.delete, try_catch, bind, chamar, status_json,
    status_end, ret. cbv zeta.
  destruct (OngService.delete _ (banco st)) as [[x|e] w'] eqn:Hc; simpl.
  - exists (mkResposta 204 None), w'. split; [reflexivity|]. left. eauto.
  - exists (mkResposta 404 (Some ("error", CMensagem (message e)))), w'.
    split; [reflexivity|]. right. eauto.
Qed.

(** How a handler that validates ends when the validation has an error. *)
Lemma reject_invalid (err : Joi.ValidationError) (m : string) rest st :
  Joi.details err = m :: rest →
  (await m ← lift (details_0_message err);
   await _ ← status_json 400 "error" (CMensagem m);
   ret ReturnsRes) st
  = (Normal ReturnsRes,
     mkEstado (banco st)
              (respostas st ++ [mkResposta 400 (Some ("error", CMensagem m))])).
Proof.
  intros Hd. unfold bind, lift, details_0_message, status_json, ret.
  now rewrite Hd.
Qed.

(** X10: When the body fails the schema of [create], the handler answers 400
    with the message of the first detail and returns [res]; the service
    is not called: its world stays as it was. *)
Theorem create_rejects_invalid_body req st err m rest :
  Joi.error (Joi.validate create_schema (body req)) = Some err →
  Joi.details err = m :: rest →
  OngController.create req st
  = (Normal ReturnsRes,
     mkEstado (banco st)
              (respostas st ++ [mkResposta 400 (Some ("error", CMensagem m))])).
Proof.
  intros He Hd. unfold OngController.create. cbv zeta. rewrite He.
  now apply reject_invalid with rest.
Qed.

(** X11: When the body passes the schema, [create] hands the validated value
    (not the raw body) to [ongService.create], never rejects and sends
    exactly one response: 201 with [{ ong }] when the service returns,
    409 with the message of the error when it throws. *)
Theorem create_answers_valid_body req st :
  Joi.error (Joi.validate create_schema (body req)) = None →
  ∃ resp w',
    OngController.create req st
    = (Normal ReturnsUndefined, mkEstado w' (respostas st ++ [resp])) ∧
    ((∃ newOng,
        OngService.create (Joi.value (Joi.validate create_schema (body req)))
                          (banco st) = (Normal newOng, w') ∧
        resp = mkResposta 201 (Some ("ong", CDados newOng))) ∨
     (∃ e,
        OngService.create (Joi.value (Joi.validate create_schema (body req)))
                          (banco st) = (Throw e, w') ∧
        resp = mkResposta 409 (Some ("error", CMensagem (message e))))).
Proof.
  intros He. unfold OngController.create. cbv zeta. rewrite He.
  apply (try_call_json _ 201 "ong" CDados 409).
Qed.

(** X12: When the body fails the schema of [update] (no key of the [or] list,
    say), the handler answers 400 with the message of the first detail
    and returns [res]; the service is not called. *)
Theorem update_rejects_invalid_body req st err m rest :
  Joi.error (Joi.validate update_schema (body req)) = Some err →
  Joi.details err = m :: rest →
  OngController.update req st
  = (Normal ReturnsRes,
     mkEstado (banco st)
              (respostas st ++ [mkResposta 400 (Some ("error", CMensagem m))])).
Proof.
  intros He Hd. unfold OngController.update. cbv zeta. rewrite He.
  now apply reject_invalid with rest.
Qed.

(** X13: When the body passes the schema, [update] calls
    [ongService.update(Number(req.params.id), value)] with the validated
    value, never rejects and sends exactly one response: 200 with
    [{ ong }] when the service returns, 404 with the message of the error
    when it throws. *)
Theorem update_answers_valid_body req st :
  Joi.error (Joi.validate update_schema (body req)) = None →
  ∃ resp w',
    OngController.update req st
    = (Normal ReturnsUndefined, mkEstado w' (respostas st ++ [resp])) ∧
    ((∃ updatedOng,
        OngService.update (Number (get (params req) "id"))
                          (Joi.value (Joi.validate update_schema (body req)))
                          (banco st) = (Normal updatedOng, w') ∧
        resp = mkResposta 200 (Some ("ong", CDados updatedOng))) ∨
     (∃ e,
        OngService.update (Number (get (params req) "id"))
                          (Joi.value (Joi.validate update_schema (body req)))
                          (banco st) = (Throw e, w') ∧
        resp = mkResposta 404 (Some ("error", CMensagem (message e))))).
Proof.
  intros He. unfold OngController.update. cbv zeta. rewrite He.
  apply (try_call_json _ 200 "ong" CDados 404).
Qed.

End ControllerProperties.

(** ** Further runs on the concrete deployments *)

Section MoreWitnesses.
Import ExemploOng.
Import AutenticacaoService (login, usuario_email, invalid_credentials, invalid_refresh_token).
Import OngController (mkEstado, banco, respostas, create_schema, update_schema).

(** Without the signing secret, a login with the right senha rejects with
    the error of [gerarToken]; a login without an argument rejects with a
    [TypeError]. *)
Lemma login_rejections_witness :
  @AutenticacaoService.login_any sem_segredo (CObj Exemplo.credenciais_ana)
     Exemplo.mundo
  = (Throw (mkError "secretOrPrivateKey must have a value"), Exemplo.mundo) ∧
  @AutenticacaoService.login_any Exemplo.servico (CVal VUndef) Exemplo.mundo
  = (Throw (mkError "Cannot read properties of undefined (reading 'email')"),
     Exemplo.mundo).
Proof.
  split.
  - apply (proj2 (@login_rejections sem_segredo (CObj Exemplo.credenciais_ana)
                    Exemplo.mundo _ Exemplo.mundo)).
    right. right. exists Exemplo.credenciais_ana. split; [now left|].
    right. right. exists Exemplo.ana, Exemplo.mundo.
    split; [vm_compute; reflexivity|].
    split; [vm_compute; reflexivity|].
    left. reflexivity.
  - apply (proj2 (@login_rejections Exemplo.servico (CVal VUndef)
                    Exemplo.mundo _ Exemplo.mundo)).
    left. auto.
Defined.

Lemma login_reads_email_and_senha_witness :
  credenciais_com_perfil ≠ Exemplo.credenciais_ana ∧
  @login Exemplo.servico credenciais_com_perfil Exemplo.mundo
  = @login Exemplo.servico Exemplo.credenciais_ana Exemplo.mundo.
Proof.
  split.
  - intros Heq. apply (f_equal (λ o : JsObject, o !! "perfil")) in Heq.
    vm_compute in Heq. discriminate.
  - apply (@login_reads_email_and_senha Exemplo.servico);
      vm_compute; reflexivity.
Defined.

Lemma refreshToken_without_usuario_claim_witness :
  @AutenticacaoService.refreshToken outro_emissor Exemplo.refresh_ana Exemplo.mundo
  = (Throw invalid_refresh_token, Exemplo.mundo).
Proof.
  apply (@refreshToken_without_usuario_claim outro_emissor Exemplo.refresh_ana
           Exemplo.mundo {[ "sub" := CVal (VStr "a@x.com") ]} Exemplo.mundo).
  - reflexivity.
  - left. vm_compute. reflexivity.
Defined.


(** A body without [nome] is turned down; the ONGs stay as they were. *)
Lemma create_rejects_invalid_body_witness :
  @OngController.create servico validador (pedido "1" ∅) inicio
  = (Normal ReturnsRes,
     mkEstado (H:=servico) {[ 1 := casa ]}
       [mkResposta 400 (Some ("error", CMensagem "nome is required"))]).
Proof.
  apply (@create_rejects_invalid_body servico validador (pedido "1" ∅)
           inicio (Joi.mkValidationError ["nome is required"])
           "nome is required" []); reflexivity.
Defined.

(** A complete body is stored: 201, and the new ONG gets the id 2. *)
Lemma create_answers_valid_body_witness :
  @OngController.create servico validador (pedido "1" nova) inicio
  = (Normal ReturnsUndefined,
     mkEstado (H:=servico)
       (<[ 2 := <[ "id" := VNum 2 ]> nova ]> {[ 1 := casa ]})
       [mkResposta 201 (Some ("ong", CDados [<[ "id" := VNum 2 ]> nova]))]) ∧
  ∃ resp w',
    @OngController.create servico validador (pedido "1" nova) inicio
    = (Normal ReturnsUndefined, mkEstado w' (respostas inicio ++ [resp])) ∧
    ((∃ newOng,
        @OngService.create servico
          (Joi.value (@Joi.validate validador create_schema (body (pedido "1" nova))))
          (banco inicio) = (Normal newOng, w') ∧
        resp = mkResposta 201 (Some ("ong", CDados newOng))) ∨
     (∃ e,
        @OngService.create servico
          (Joi.value (@Joi.validate validador create_schema (body (pedido "1" nova))))
          (banco inicio) = (Throw e, w') ∧
        resp = mkResposta 409 (Some ("error", CMensagem (message e))))).
Proof.
  split; [reflexivity|].
  apply (@create_answers_valid_body servico validador (pedido "1" nova) inicio).
  reflexivity.
Defined.

(** An empty body has none of the keys that [update] asks one of. *)
Lemma update_rejects_invalid_body_witness :
  @OngController.update servico validador globais (pedido "1" ∅) inicio
  = (Normal ReturnsRes,
     mkEstado (H:=servico) {[ 1 := casa ]}
       [mkResposta 400
          (Some ("error", CMensagem "value must contain at least one key"))]).
Proof.
  apply (@update_rejects_invalid_body servico validador globais (pedido "1" ∅)
           inicio (Joi.mkValidationError ["value must contain at least one key"])
           "value must contain at least one key" []); reflexivity.
Defined.

(** Renaming the ONG 2, which does not exist, answers 404. *)
Lemma update_answers_valid_body_witness :
  @OngController.update servico validador globais
    (pedido "2" {[ "nome" := VStr "Lar" ]}) inicio
  = (Normal ReturnsUndefined,
     mkEstado (H:=servico) {[ 1 := casa ]}
       [mkResposta 404 (Some ("error", CMensagem "ONG não encontrada"))]) ∧
  ∃ resp w',
    @OngController.update servico validador globais
      (pedido "2" {[ "nome" := VStr "Lar" ]}) inicio
    = (Normal ReturnsUndefined, mkEstado w' (respostas inicio ++ [resp])) ∧
    ((∃ updatedOng,
        @OngService.update servico
          (@Number globais (get (params (pedido "2" {[ "nome" := VStr "Lar" ]})) "id"))
          (Joi.value (@Joi.validate validador update_schema
                        (body (pedido "2" {[ "nome" := VStr "Lar" ]}))))
          (banco inicio) = (Normal updatedOng, w') ∧
        resp = mkResposta 200 (Some ("ong", CDados updatedOng))) ∨
     (∃ e,
        @OngService.update servico
          (@Number globais (get (params (pedido "2" {[ "nome" := VStr "Lar" ]})) "id"))
          (Joi.value (@Joi.validate validador update_schema
                        (body (pedido "2" {[ "nome" := VStr "Lar" ]}))))
          (banco inicio) = (Throw e, w') ∧
        resp = mkResposta 404 (Some ("error", CMensagem (message e))))).
Proof.
  split; [reflexivity|].
  apply (@update_answers_valid_body servico validador globais
           (pedido "2" {[ "nome" := VStr "Lar" ]}) inicio).
  reflexivity.
Defined.

End MoreWitnesses.
